(** * DocGen GUI: the style configuration held by [DocGenGUI]

    A shallow embedding of [doc_gen_gui.py]: the nested dictionary
    [self.style_config], the template methods that replace it, the [update_*]
    callbacks that write into it, and [format_document], which hands it to
    [DocumentFormatter].

    Python dictionaries are mutable objects reached through references, so the
    embedding keeps an explicit store of dictionary objects: a method that
    writes [self.style_config[element][key] = value] updates the object that
    the outer dictionary refers to, and whoever holds that reference sees the
    write. *)

From stdpp Require Import base option list gmap strings pretty.
From Stdlib Require Import QArith Ascii.
Close Scope Q_scope.
Open Scope string_scope.
Open Scope list_scope.

(** ** Python values *)

(** A [float] is kept as the reduced fraction of its decimal text: the
    program never computes with its floats, it stores them and hands them on.
    A reference is the position of a dictionary object in the store. *)
Definition loc := nat.

Inductive value :=
  | VFloat (q : Q)
  | VInt (n : Z)
  | VStr (s : string)
  | VBool (b : bool)
  | VRef (l : loc).

#[global] Instance Q_eq_dec : EqDecision Q.
Proof. solve_decision. Defined.

#[global] Instance value_eq_dec : EqDecision value.
Proof. solve_decision. Defined.

(** A float literal such as [3.7]. *)
Definition PyFloat (q : Q) : value := VFloat (Qred q).

(** The exceptions the modelled methods can raise.  [DanglingRef] has no
    Python counterpart: it marks a reference to an object the store lacks,
    which Python rules out. *)
Inductive exn :=
  | KeyError (k : string)
  | ValueError
  | AttributeError (name : string)
  | TypeError
  | ImportError
  | OSError
  | FormatterError
  | DanglingRef.

(** ** The object *)

(** [self.font_combos[element]]: the texts of the [family] and [size]
    comboboxes of a tab. *)
Record combos := { combo_family : string; combo_size : string }.

(** What the program shows or hands to its collaborators. *)
Inductive effect :=
  | ShowInfo (title : string)
  | ShowWarning (title : string)
  | ShowError (title : string)
  | ShowPreview (config : gmap string (gmap string value))
  | NewFormatter (config : gmap string (gmap string value))
  | FormatWord (input output : string)
  | FormatText (content output : string).

(** The attributes of a [DocGenGUI] instance.  [heap] holds the dictionary
    objects in allocation order; [style_config] is the reference stored in
    [self.style_config].  The Tk variables and widgets are kept by their
    current content; [spins] maps [key] to the text of the Spinbox stored in
    the attribute [spin_key].  The attributes [font_combos], [bold_vars],
    [align_vars] and [indent_var] are optional: the only statements that would
    create the first three come after the [return] of [get_default_style].
    The status bar, the file label and the widget layout are left out: no
    method reads them back. *)
Record gui := {
  heap : list (gmap string value);
  style_config : loc;
  input_file : option string;
  template_var : string;
  spins : gmap string string;
  font_size_combo : string;
  spacing_var : string;
  font_combos : option (gmap string combos);
  bold_vars : option (gmap string bool);
  align_vars : option (gmap string string);
  indent_var : option bool;
  effects : list effect
}.

Definition set_heap (h : list (gmap string value)) (g : gui) : gui :=
  {| heap := h; style_config := style_config g; input_file := input_file g;
     template_var := template_var g; spins := spins g;
     font_size_combo := font_size_combo g; spacing_var := spacing_var g;
     font_combos := font_combos g; bold_vars := bold_vars g;
     align_vars := align_vars g; indent_var := indent_var g;
     effects := effects g |}.

Definition set_style_config (l : loc) (g : gui) : gui :=
  {| heap := heap g; style_config := l; input_file := input_file g;
     template_var := template_var g; spins := spins g;
     font_size_combo := font_size_combo g; spacing_var := spacing_var g;
     font_combos := font_combos g; bold_vars := bold_vars g;
     align_vars := align_vars g; indent_var := indent_var g;
     effects := effects g |}.

Definition set_input_file (f : option string) (g : gui) : gui :=
  {| heap := heap g; style_config := style_config g; input_file := f;
     template_var := template_var g; spins := spins g;
     font_size_combo := font_size_combo g; spacing_var := spacing_var g;
     font_combos := font_combos g; bold_vars := bold_vars g;
     align_vars := align_vars g; indent_var := indent_var g;
     effects := effects g |}.

Definition set_template_var (s : string) (g : gui) : gui :=
  {| heap := heap g; style_config := style_config g;
     input_file := input_file g; template_var := s; spins := spins g;
     font_size_combo := font_size_combo g; spacing_var := spacing_var g;
     font_combos := font_combos g; bold_vars := bold_vars g;
     align_vars := align_vars g; indent_var := indent_var g;
     effects := effects g |}.

Definition set_spins (m : gmap string string) (g : gui) : gui :=
  {| heap := heap g; style_config := style_config g;
     input_file := input_file g; template_var := template_var g; spins := m;
     font_size_combo := font_size_combo g; spacing_var := spacing_var g;
     font_combos := font_combos g; bold_vars := bold_vars g;
     align_vars := align_vars g; indent_var := indent_var g;
     effects := effects g |}.

Definition set_font_size_combo (s : string) (g : gui) : gui :=
  {| heap := heap g; style_config := style_config g;
     input_file := input_file g; template_var := template_var g;
     spins := spins g; font_size_combo := s; spacing_var := spacing_var g;
     font_combos := font_combos g; bold_vars := bold_vars g;
     align_vars := align_vars g; indent_var := indent_var g;
     effects := effects g |}.

Definition set_spacing_var (s : string) (g : gui) : gui :=
  {| heap := heap g; style_config := style_config g;
     input_file := input_file g; template_var := template_var g;
     spins := spins g; font_size_combo := font_size_combo g;
     spacing_var := s; font_combos := font_combos g;
     bold_vars := bold_vars g; align_vars := align_vars g;
     indent_var := indent_var g; effects := effects g |}.

Definition set_font_combos (m : option (gmap string combos)) (g : gui) : gui :=
  {| heap := heap g; style_config := style_config g;
     input_file := input_file g; template_var := template_var g;
     spins := spins g; font_size_combo := font_size_combo g;
     spacing_var := spacing_var g; font_combos := m;
     bold_vars := bold_vars g; align_vars := align_vars g;
     indent_var := indent_var g; effects := effects g |}.

Definition set_bold_vars (m : option (gmap string bool)) (g : gui) : gui :=
  {| heap := heap g; style_config := style_config g;
     input_file := input_file g; template_var := template_var g;
     spins := spins g; font_size_combo := font_size_combo g;
     spacing_var := spacing_var g; font_combos := font_combos g;
     bold_vars := m; align_vars := align_vars g; indent_var := indent_var g;
     effects := effects g |}.

Definition set_align_vars (m : option (gmap string string)) (g : gui) : gui :=
  {| heap := heap g; style_config := style_config g;
     input_file := input_file g; template_var := template_var g;
     spins := spins g; font_size_combo := font_size_combo g;
     spacing_var := spacing_var g; font_combos := font_combos g;
     bold_vars := bold_vars g; align_vars := m; indent_var := indent_var g;
     effects := effects g |}.

Definition set_indent_var (b : option bool) (g : gui) : gui :=
  {| heap := heap g; style_config := style_config g;
     input_file := input_file g; template_var := template_var g;
     spins := spins g; font_size_combo := font_size_combo g;
     spacing_var := spacing_var g; font_combos := font_combos g;
     bold_vars := bold_vars g; align_vars := align_vars g; indent_var := b;
     effects := effects g |}.

Definition set_effects (es : list effect) (g : gui) : gui :=
  {| heap := heap g; style_config := style_config g;
     input_file := input_file g; template_var := template_var g;
     spins := spins g; font_size_combo := font_size_combo g;
     spacing_var := spacing_var g; font_combos := font_combos g;
     bold_vars := bold_vars g; align_vars := align_vars g;
     indent_var := indent_var g; effects := es |}.

Definition add_effect (e : effect) (g : gui) : gui :=
  set_effects (effects g ++ [e]) g.

(** ** Running a method: state and exceptions *)

Inductive outcome (A : Type) :=
  | Return (a : A) (g : gui)
  | Raise (e : exn) (g : gui).
Arguments Return {A} a g.
Arguments Raise {A} e g.

Definition M (A : Type) : Type := gui → outcome A.

#[global] Instance M_ret : MRet M := λ A a g, Return a g.
#[global] Instance M_bind : MBind M := λ A B k m g,
  match m g with
  | Return a g' => k a g'
  | Raise e g' => Raise e g'
  end.

Definition raise {A} (e : exn) : M A := λ g, Raise e g.

Definition modify (f : gui → gui) : M unit := λ g, Return tt (f g).
Definition gets {A} (f : gui → A) : M A := λ g, Return (f g) g.

(** [try: body except ValueError: handler] *)
Definition try_except_ValueError {A} (body handler : M A) : M A :=
  λ g, match body g with
       | Raise ValueError g' => handler g'
       | r => r
       end.

Definition returns {A} (r : outcome A) : bool :=
  match r with Return _ _ => true | Raise _ _ => false end.

(** The state a callback leaves behind, whether it returned or raised: Tk
    reports an exception of a callback and goes on with the main loop. *)
Definition state_of {A} (r : outcome A) : gui :=
  match r with Return _ g => g | Raise _ g => g end.

(** ** Dictionary objects *)

(** The content of a dictionary display [{k1: v1, ...}]: later keys win. *)
Definition dict_of (items : list (string * value)) : gmap string value :=
  foldl (λ d kv, <[kv.1 := kv.2]> d) ∅ items.

(** Evaluating a dictionary display makes a new object. *)
Definition new_dict (items : list (string * value)) : M loc :=
  λ g, Return (length (heap g)) (set_heap (heap g ++ [dict_of items]) g).

(** [config[element][key] = value] on the dictionary at [c]: the store after
    the assignment, or the exception. *)
Definition store (h : list (gmap string value)) (c : loc)
    (element key : string) (v : value)
    : exn + list (gmap string value) :=
  match h !! c with
  | None => inl DanglingRef
  | Some top =>
    match top !! element with
    | None => inl (KeyError element)
    | Some (VRef l) =>
      match h !! l with
      | None => inl DanglingRef
      | Some d => inr (<[l := <[key := v]> d]> h)
      end
    | Some _ => inl TypeError
    end
  end.

(** [self.style_config[element][key] = value] *)
Definition setitem (element key : string) (v : value) : M unit :=
  λ g, match store (heap g) (style_config g) element key v with
       | inr h' => Return tt (set_heap h' g)
       | inl e => Raise e g
       end.

(** ** Templates *)

(** [get_default_style]: the statements after its [return] never run. *)
Definition get_default_style : M loc :=
  document ← new_dict
    [("margin_top", PyFloat 3.7); ("margin_bottom", PyFloat 3.5);
     ("margin_left", PyFloat 2.8); ("margin_right", PyFloat 2.6);
     ("line_spacing", PyFloat 1.5);
     ("font_family", VStr "仿宋_GB2312"); ("font_size", VInt 16)];
  title ← new_dict
    [("font_family", VStr "黑体"); ("font_size", VInt 22);
     ("bold", VBool true); ("alignment", VStr "center")];
  heading1 ← new_dict
    [("font_family", VStr "黑体"); ("font_size", VInt 16);
     ("bold", VBool true); ("alignment", VStr "left")];
  heading2 ← new_dict
    [("font_family", VStr "楷体_GB2312"); ("font_size", VInt 15);
     ("bold", VBool false); ("alignment", VStr "left")];
  body ← new_dict
    [("font_family", VStr "仿宋_GB2312"); ("font_size", VInt 16);
     ("bold", VBool false); ("alignment", VStr "left");
     ("first_line_indent", VInt 2)];
  signature ← new_dict
    [("font_family", VStr "仿宋_GB2312"); ("font_size", VInt 16);
     ("bold", VBool false); ("alignment", VStr "right")];
  new_dict
    [("document", VRef document); ("title", VRef title);
     ("heading1", VRef heading1); ("heading2", VRef heading2);
     ("body", VRef body); ("signature", VRef signature)].

(** [reset_styles] *)
Definition reset_styles : M unit :=
  c ← get_default_style;
  modify (set_style_config c);;
  modify (set_template_var "default");;
  modify (add_effect (ShowInfo "重置")).

(** [apply_formal_style] *)
Definition apply_formal_style : M unit :=
  document ← new_dict
    [("margin_top", PyFloat 2.5); ("margin_bottom", PyFloat 2.5);
     ("margin_left", PyFloat 3.0); ("margin_right", PyFloat 2.5);
     ("line_spacing", PyFloat 1.5);
     ("font_family", VStr "宋体"); ("font_size", VInt 14)];
  title ← new_dict
    [("font_family", VStr "黑体"); ("font_size", VInt 20);
     ("bold", VBool true); ("alignment", VStr "center")];
  heading1 ← new_dict
    [("font_family", VStr "黑体"); ("font_size", VInt 16);
     ("bold", VBool true); ("alignment", VStr "left")];
  heading2 ← new_dict
    [("font_family", VStr "宋体"); ("font_size", VInt 14);
     ("bold", VBool true); ("alignment", VStr "left")];
  body ← new_dict
    [("font_family", VStr "宋体"); ("font_size", VInt 14);
     ("bold", VBool false); ("alignment", VStr "left");
     ("first_line_indent", VInt 2)];
  signature ← new_dict
    [("font_family", VStr "宋体"); ("font_size", VInt 14);
     ("bold", VBool false); ("alignment", VStr "right")];
  c ← new_dict
    [("document", VRef document); ("title", VRef title);
     ("heading1", VRef heading1); ("heading2", VRef heading2);
     ("body", VRef body); ("signature", VRef signature)];
  modify (set_style_config c).

(** [apply_academic_style] *)
Definition apply_academic_style : M unit :=
  document ← new_dict
    [("margin_top", PyFloat 2.5); ("margin_bottom", PyFloat 2.5);
     ("margin_left", PyFloat 3.0); ("margin_right", PyFloat 2.5);
     ("line_spacing", PyFloat 2.0);
     ("font_family", VStr "宋体"); ("font_size", VInt 12)];
  title ← new_dict
    [("font_family", VStr "黑体"); ("font_size", VInt 18);
     ("bold", VBool true); ("alignment", VStr "center")];
  heading1 ← new_dict
    [("font_family", VStr "黑体"); ("font_size", VInt 15);
     ("bold", VBool true); ("alignment", VStr "left")];
  heading2 ← new_dict
    [("font_family", VStr "黑体"); ("font_size", VInt 14);
     ("bold", VBool true); ("alignment", VStr "left")];
  body ← new_dict
    [("font_family", VStr "宋体"); ("font_size", VInt 12);
     ("bold", VBool false); ("alignment", VStr "justify");
     ("first_line_indent", VInt 2)];
  signature ← new_dict
    [("font_family", VStr "宋体"); ("font_size", VInt 12);
     ("bold", VBool false); ("alignment", VStr "right")];
  c ← new_dict
    [("document", VRef document); ("title", VRef title);
     ("heading1", VRef heading1); ("heading2", VRef heading2);
     ("body", VRef body); ("signature", VRef signature)];
  modify (set_style_config c).

(** [on_template_change]: a name that is none of the three falls through. *)
Definition on_template_change : M unit :=
  template ← gets template_var;
  if decide (template = "default") then reset_styles
  else if decide (template = "formal") then apply_formal_style
  else if decide (template = "academic") then apply_academic_style
  else mret tt.

(** ** Conversions of widget text *)

(** Python's [float] and [int] on a string: [None] stands for [ValueError].
    The methods are written over any such pair of conversions. *)
Class Builtins := {
  py_float : string → option Q;
  py_int : string → option Z
}.

Section Methods.
Context `{Builtins}.

Definition float_ (s : string) : M Q :=
  match py_float s with Some q => mret q | None => raise ValueError end.

Definition int_ (s : string) : M Z :=
  match py_int s with Some n => mret n | None => raise ValueError end.

(** [getattr(self, f"spin_{key}").get()] *)
Definition spin_get (key : string) : M string :=
  λ g, match spins g !! key with
       | Some text => Return text g
       | None => Raise (AttributeError ("spin_" +:+ key)) g
       end.

(** [self.<attr>[element]] for the dictionaries of widgets *)
Definition widget_of {A} (attr : string) (field : gui → option (gmap string A))
    (element : string) : M A :=
  λ g, match field g with
       | None => Raise (AttributeError attr) g
       | Some ws =>
         match ws !! element with
         | Some w => Return w g
         | None => Raise (KeyError element) g
         end
       end.

(** ** The setters *)

(** [update_margin]: the label [template_var] is not touched. *)
Definition update_margin (key : string) (default : Q) : M unit :=
  try_except_ValueError
    (text ← spin_get key;
     value ← float_ text;
     setitem "document" key (VFloat value))
    (mret tt).

Definition update_style (element key : string) (v : value) : M unit :=
  setitem element key v;;
  modify (set_template_var "custom").

Definition update_font (element : string) : M unit :=
  c ← widget_of "font_combos" font_combos element;
  setitem element "font_family" (VStr (combo_family c));;
  modify (set_template_var "custom").

Definition update_size (element : string) : M unit :=
  c ← widget_of "font_combos" font_combos element;
  n ← int_ (combo_size c);
  setitem element "font_size" (VInt n);;
  modify (set_template_var "custom").

Definition update_bold (element : string) : M unit :=
  bold ← widget_of "bold_vars" bold_vars element;
  setitem element "bold" (VBool bold);;
  modify (set_template_var "custom").

Definition update_alignment (element : string) : M unit :=
  align ← widget_of "align_vars" align_vars element;
  setitem element "alignment" (VStr align);;
  modify (set_template_var "custom").

Definition update_indent : M unit :=
  checked ← (λ g, match indent_var g with
                  | Some b => Return b g
                  | None => Raise (AttributeError "indent_var") g
                  end);
  setitem "body" "first_line_indent" (VInt (if checked : bool then 2 else 0));;
  modify (set_template_var "custom").

End Methods.

(** ** Reading the configuration *)

Definition deref (h : list (gmap string value)) (v : value)
    : option (gmap string value) :=
  match v with VRef l => h !! l | _ => None end.

(** The dictionary at [c] with the dictionaries it refers to, as
    [json.dumps] walks it in [preview_config]. *)
Definition view (h : list (gmap string value)) (c : loc)
    : gmap string (gmap string value) :=
  match h !! c with
  | Some top => omap (deref h) top
  | None => ∅
  end.

(** The content of [self.style_config]. *)
Definition snapshot (g : gui) : gmap string (gmap string value) :=
  view (heap g) (style_config g).

(** [self.style_config[element][key]] *)
Definition field (g : gui) (element key : string) : option value :=
  snapshot g !! element ≫= (.!! key).

(** ** Files and rendering *)

(** [select_file]; [filename] is what the open dialog returned. *)
Definition select_file (filename : string) : M unit :=
  if decide (filename = "") then mret tt
  else modify (set_input_file (Some filename)).

Definition preview_config : M unit :=
  c ← gets snapshot;
  modify (add_effect (ShowPreview c)).

(** What [format_document] meets outside the object: the answer of the
    save dialog (empty when cancelled), whether [doc_formatter] imports,
    whether [DocumentFormatter(config)] returns, the text of the input file
    ([None] when reading raises) and whether the formatter's method returns. *)
Record world := {
  save_as : string;
  imports : bool;
  constructs : bool;
  file_text : option string;
  formats : bool
}.

Definition endswith (s suffix : string) : bool :=
  let n := String.length s in
  let m := String.length suffix in
  if (m <=? n)%nat then String.eqb (String.substring (n - m) m s) suffix else false.

(** [try: body except Exception as e: handler] *)
Definition try_except_Exception {A} (body handler : M A) : M A :=
  λ g, match body g with
       | Raise _ g' => handler g'
       | r => r
       end.

Definition when_fails (ok : bool) (e : exn) : M unit :=
  if ok then mret tt else raise e.

(** [format_document]: [self.style_config] goes to [DocumentFormatter] as it
    is. *)
Definition format_document (w : world) : M unit :=
  input ← gets input_file;
  match input with
  | None | Some "" => modify (add_effect (ShowWarning "提示"))
  | Some path =>
    let output_file := save_as w in
    if decide (output_file = "") then mret tt
    else
      try_except_Exception
        (when_fails (imports w) ImportError;;
         c ← gets snapshot;
         modify (add_effect (NewFormatter c));;
         when_fails (constructs w) FormatterError;;
         (if endswith path ".docx"
          then modify (add_effect (FormatWord path output_file))
          else
            match file_text w with
            | None => raise OSError
            | Some content =>
              modify (add_effect (FormatText content output_file))
            end);;
         when_fails (formats w) FormatterError;;
         modify (add_effect (ShowInfo "成功")))
        (modify (add_effect (ShowError "错误")))
  end.

(** ** The callbacks as [setup_ui] wires them *)

(** The four template radio buttons. *)
Inductive template_choice := Default | Formal | Academic | Custom.

Definition template_value (c : template_choice) : string :=
  match c with
  | Default => "default" | Formal => "formal"
  | Academic => "academic" | Custom => "custom"
  end.

(** The four margin spinboxes, with the [default] bound in their command. *)
Inductive margin := MarginTop | MarginBottom | MarginLeft | MarginRight.

Definition margin_key (m : margin) : string :=
  match m with
  | MarginTop => "margin_top" | MarginBottom => "margin_bottom"
  | MarginLeft => "margin_left" | MarginRight => "margin_right"
  end.

Definition margin_default (m : margin) : Q :=
  match m with
  | MarginTop => Qred 3.7 | MarginBottom => Qred 3.5
  | MarginLeft => Qred 2.8 | MarginRight => Qred 2.6
  end.

(** The four line-spacing radio buttons and the value bound in each. *)
Inductive spacing := Single | OneAndHalf | Double | FixedSpacing.

Definition spacing_value (s : spacing) : value :=
  match s with
  | Single => PyFloat 1.0 | OneAndHalf => PyFloat 1.5
  | Double => PyFloat 2.0 | FixedSpacing => VStr "fixed"
  end.

Definition spacing_text (s : spacing) : string :=
  match s with
  | Single => "1.0" | OneAndHalf => "1.5"
  | Double => "2.0" | FixedSpacing => "fixed"
  end.

(** The tabs [setup_ui] builds with [setup_element_tab]: there is none for
    [heading2] and [signature]. *)
Inductive tab := Title | Heading1 | Body.

Definition element_key (t : tab) : string :=
  match t with Title => "title" | Heading1 => "heading1" | Body => "body" end.

(** The three alignment radio buttons of a tab. *)
Inductive align_choice := AlignLeft | AlignCenter | AlignRight.

Definition align_value (a : align_choice) : string :=
  match a with
  | AlignLeft => "left" | AlignCenter => "center" | AlignRight => "right"
  end.

(** What the user does.  A widget event carries the content the widget has
    when its callback runs.  The events carry any text, which is more than
    the widgets deliver: Tk runs the command of a Spinbox only after it has
    stepped, limited and rewritten the text, and the comboboxes are read-only
    and offer listed values ([deliverable], further down, keeps to these). *)
Inductive event :=
  | PickTemplate (c : template_choice)
  | Spin (m : margin) (text : string)
  | PickDocFontSize (text : string)
  | PickSpacing (s : spacing)
  | PickFont (t : tab) (text : string)
  | PickSize (t : tab) (text : string)
  | ToggleBold (t : tab) (checked : bool)
  | PickAlignment (t : tab) (a : align_choice)
  | ToggleIndent (checked : bool)
  | ClickSelectFile (filename : string)
  | ClickPreview
  | ClickFormat (w : world)
  | ClickReset.

Definition set_combo (element : string) (f : combos → combos) (g : gui) : gui :=
  set_font_combos
    ((λ ws, <[element := f (default {| combo_family := ""; combo_size := "" |}
                                    (ws !! element))]> ws) <$> font_combos g) g.

Section Events.
Context `{Builtins}.

(** The widget takes its new content, then its command runs. *)
Definition callback (ev : event) : M unit :=
  match ev with
  | PickTemplate c =>
    modify (set_template_var (template_value c));; on_template_change
  | Spin m text =>
    modify (λ g, set_spins (<[margin_key m := text]> (spins g)) g);;
    update_margin (margin_key m) (margin_default m)
  | PickDocFontSize text =>
    modify (set_font_size_combo text);;
    update_style "document" "font_size" (VInt 16)
  | PickSpacing s =>
    modify (set_spacing_var (spacing_text s));;
    update_style "document" "line_spacing" (spacing_value s)
  | PickFont t text =>
    modify (set_combo (element_key t)
              (λ c, {| combo_family := text; combo_size := combo_size c |}));;
    update_font (element_key t)
  | PickSize t text =>
    modify (set_combo (element_key t)
              (λ c, {| combo_family := combo_family c; combo_size := text |}));;
    update_size (element_key t)
  | ToggleBold t checked =>
    modify (λ g, set_bold_vars (<[element_key t := checked]> <$> bold_vars g) g);;
    update_bold (element_key t)
  | PickAlignment t a =>
    modify (λ g, set_align_vars
                   (<[element_key t := align_value a]> <$> align_vars g) g);;
    update_alignment (element_key t)
  | ToggleIndent checked =>
    modify (λ g, set_indent_var ((λ _, checked) <$> indent_var g) g);;
    update_indent
  | ClickSelectFile filename => select_file filename
  | ClickPreview => preview_config
  | ClickFormat w => format_document w
  | ClickReset => reset_styles
  end.

Definition step (ev : event) (g : gui) : gui := state_of (callback ev g).

Definition run (evs : list event) (g : gui) : gui := foldl (flip step) g evs.

End Events.

(** ** Decimal texts *)

Definition digit_of (c : Ascii.ascii) : option Z :=
  let n := Z.of_N (Ascii.N_of_ascii c) in
  if ((48 <=? n) && (n <=? 57))%Z then Some (n - 48)%Z else None.

(** The digits of [s] as a number, with their count. *)
Fixpoint read_digits (s : string) (acc : Z) (n : nat) : option (Z * nat) :=
  match s with
  | EmptyString => Some (acc, n)
  | String c s' => d ← digit_of c; read_digits s' (10 * acc + d)%Z (S n)
  end.

Fixpoint split_point (s : string) : string * option string :=
  match s with
  | EmptyString => (EmptyString, None)
  | String c s' =>
    if Ascii.eqb c "."%char then (EmptyString, Some s')
    else let '(a, b) := split_point s' in (String c a, b)
  end.

(** The number with the given digits, the last [digits] of them after the
    point. *)
Definition dec (mantissa : Z) (digits : nat) : Q :=
  Qred (mantissa # Pos.of_nat (10 ^ digits)).

Definition unsigned_decimal (s : string) : option Q :=
  let '(whole, fraction) := split_point s in
  '(i, ni) ← read_digits whole 0 0;
  '(f, nf) ← read_digits (default EmptyString fraction) 0 0;
  if (ni + nf =? 0)%nat then None else Some (dec (i * 10 ^ Z.of_nat nf + f) nf).

Definition signed {A} (neg : A → A) (p : string → option A) (s : string)
    : option A :=
  match s with
  | String c s' =>
    if Ascii.eqb c "-"%char then neg <$> p s'
    else if Ascii.eqb c "+"%char then p s' else p s
  | EmptyString => p s
  end.

Definition unsigned_integer (s : string) : option Z :=
  '(i, n) ← read_digits s 0 0;
  if (n =? 0)%nat then None else Some i.

(** [float] and [int] on plain signed decimal texts, where they agree with
    Python's; Python accepts more (blanks around the number, exponents,
    underscores, [inf], [nan]), and here such texts are refused. *)
#[global] Instance decimal_texts : Builtins := {
  py_float := signed Qopp unsigned_decimal;
  py_int := signed Z.opp unsigned_integer
}.


(** * Properties *)

(** ** The three templates, as values *)

Definition default_config : gmap string (gmap string value) :=
  {[ "document" :=
       {[ "margin_top" := PyFloat 3.7; "margin_bottom" := PyFloat 3.5;
          "margin_left" := PyFloat 2.8; "margin_right" := PyFloat 2.6;
          "line_spacing" := PyFloat 1.5;
          "font_family" := VStr "仿宋_GB2312"; "font_size" := VInt 16 ]};
     "title" :=
       {[ "font_family" := VStr "黑体"; "font_size" := VInt 22;
          "bold" := VBool true; "alignment" := VStr "center" ]};
     "heading1" :=
       {[ "font_family" := VStr "黑体"; "font_size" := VInt 16;
          "bold" := VBool true; "alignment" := VStr "left" ]};
     "heading2" :=
       {[ "font_family" := VStr "楷体_GB2312"; "font_size" := VInt 15;
          "bold" := VBool false; "alignment" := VStr "left" ]};
     "body" :=
       {[ "font_family" := VStr "仿宋_GB2312"; "font_size" := VInt 16;
          "bold" := VBool false; "alignment" := VStr "left";
          "first_line_indent" := VInt 2 ]};
     "signature" :=
       {[ "font_family" := VStr "仿宋_GB2312"; "font_size" := VInt 16;
          "bold" := VBool false; "alignment" := VStr "right" ]} ]}.

Definition formal_config : gmap string (gmap string value) :=
  {[ "document" :=
       {[ "margin_top" := PyFloat 2.5; "margin_bottom" := PyFloat 2.5;
          "margin_left" := PyFloat 3.0; "margin_right" := PyFloat 2.5;
          "line_spacing" := PyFloat 1.5;
          "font_family" := VStr "宋体"; "font_size" := VInt 14 ]};
     "title" :=
       {[ "font_family" := VStr "黑体"; "font_size" := VInt 20;
          "bold" := VBool true; "alignment" := VStr "center" ]};
     "heading1" :=
       {[ "font_family" := VStr "黑体"; "font_size" := VInt 16;
          "bold" := VBool true; "alignment" := VStr "left" ]};
     "heading2" :=
       {[ "font_family" := VStr "宋体"; "font_size" := VInt 14;
          "bold" := VBool true; "alignment" := VStr "left" ]};
     "body" :=
       {[ "font_family" := VStr "宋体"; "font_size" := VInt 14;
          "bold" := VBool false; "alignment" := VStr "left";
          "first_line_indent" := VInt 2 ]};
     "signature" :=
       {[ "font_family" := VStr "宋体"; "font_size" := VInt 14;
          "bold" := VBool false; "alignment" := VStr "right" ]} ]}.

Definition academic_config : gmap string (gmap string value) :=
  {[ "document" :=
       {[ "margin_top" := PyFloat 2.5; "margin_bottom" := PyFloat 2.5;
          "margin_left" := PyFloat 3.0; "margin_right" := PyFloat 2.5;
          "line_spacing" := PyFloat 2.0;
          "font_family" := VStr "宋体"; "font_size" := VInt 12 ]};
     "title" :=
       {[ "font_family" := VStr "黑体"; "font_size" := VInt 18;
          "bold" := VBool true; "alignment" := VStr "center" ]};
     "heading1" :=
       {[ "font_family" := VStr "黑体"; "font_size" := VInt 15;
          "bold" := VBool true; "alignment" := VStr "left" ]};
     "heading2" :=
       {[ "font_family" := VStr "黑体"; "font_size" := VInt 14;
          "bold" := VBool true; "alignment" := VStr "left" ]};
     "body" :=
       {[ "font_family" := VStr "宋体"; "font_size" := VInt 12;
          "bold" := VBool false; "alignment" := VStr "justify";
          "first_line_indent" := VInt 2 ]};
     "signature" :=
       {[ "font_family" := VStr "宋体"; "font_size" := VInt 12;
          "bold" := VBool false; "alignment" := VStr "right" ]} ]}.

(** ** Freshly built configurations *)

Definition categories : list string :=
  ["document"; "title"; "heading1"; "heading2"; "body"; "signature"].

(** The outer dictionary of a configuration whose six records were
    allocated one after the other from [base] on. *)
Definition top_at (base : nat) : gmap string value :=
  dict_of
    [("document", VRef base); ("title", VRef (base + 1));
     ("heading1", VRef (base + 2)); ("heading2", VRef (base + 3));
     ("body", VRef (base + 4)); ("signature", VRef (base + 5))].

(** [h'] extends [h] by the seven objects of a new configuration, whose
    outer dictionary is at [c] and whose content is [cfg]. *)
Definition built (h h' : list (gmap string value)) (c : loc)
    (cfg : gmap string (gmap string value)) : Prop :=
  ∃ d0 d1 d2 d3 d4 d5 : gmap string value,
    h' = h ++ [d0; d1; d2; d3; d4; d5; top_at (length h)] ∧
    c = length h + 6 ∧
    cfg = {[ "document" := d0; "title" := d1; "heading1" := d2;
             "heading2" := d3; "body" := d4; "signature" := d5 ]}.

(** Equations between maps with concrete keys hold by evaluation. *)
Ltac by_evaluation :=
  lazymatch goal with |- ?a = _ => vm_cast_no_check (@eq_refl _ a) end.

Ltac split_conj := repeat match goal with |- _ ∧ _ => split end.

Ltac run_displays :=
  cbv [mbind M_bind new_dict modify]; cbn [heap set_heap style_config];
  rewrite ?length_app, <- ?app_assoc; cbn [length app];
  rewrite <- ?Nat.add_assoc; cbn [Nat.add].

Lemma get_default_style_built g :
  ∃ h', get_default_style g = Return (length (heap g) + 6) (set_heap h' g) ∧
        built (heap g) h' (length (heap g) + 6) default_config.
Proof.
  unfold get_default_style. run_displays.
  eexists. split; [reflexivity|].
  do 6 eexists. split; [reflexivity|]. split; [reflexivity|].
  by_evaluation.
Qed.

Lemma apply_formal_style_built g :
  ∃ h', apply_formal_style g
        = Return tt (set_style_config (length (heap g) + 6) (set_heap h' g)) ∧
        built (heap g) h' (length (heap g) + 6) formal_config.
Proof.
  unfold apply_formal_style. run_displays.
  eexists. split; [reflexivity|].
  do 6 eexists. split; [reflexivity|]. split; [reflexivity|].
  by_evaluation.
Qed.

Lemma apply_academic_style_built g :
  ∃ h', apply_academic_style g
        = Return tt (set_style_config (length (heap g) + 6) (set_heap h' g)) ∧
        built (heap g) h' (length (heap g) + 6) academic_config.
Proof.
  unfold apply_academic_style. run_displays.
  eexists. split; [reflexivity|].
  do 6 eexists. split; [reflexivity|]. split; [reflexivity|].
  by_evaluation.
Qed.

(** ** Well-formed configurations *)

(** The outer dictionary at [c] holds the six categories, each entry refers
    to a dictionary of its own, and none refers to the outer one. *)
Definition well_formed_at (h : list (gmap string value)) (c : loc) : Prop :=
  ∃ top, h !! c = Some top ∧
    (∀ el, el ∈ categories → is_Some (top !! el)) ∧
    (∀ k v, top !! k = Some v → ∃ l, v = VRef l ∧ l ≠ c ∧ is_Some (h !! l)) ∧
    (∀ k1 k2 l, top !! k1 = Some (VRef l) → top !! k2 = Some (VRef l) → k1 = k2).

Definition well_formed (g : gui) : Prop :=
  well_formed_at (heap g) (style_config g).

Lemma lookup_alloc {A} (h block : list A) (i : nat) :
  (h ++ block) !! (length h + i) = block !! i.
Proof. rewrite lookup_app_r by lia. f_equal. lia. Qed.

Lemma six_records (d0 d1 d2 d3 d4 d5 : gmap string value) :
  <["signature" := d5]> (<["body" := d4]> (<["heading2" := d3]>
     (<["heading1" := d2]> (<["title" := d1]> (<["document" := d0]> ∅)))))
  = ({[ "document" := d0; "title" := d1; "heading1" := d2;
        "heading2" := d3; "body" := d4; "signature" := d5 ]}
     : gmap string (gmap string value)).
Proof. by_evaluation. Qed.

Lemma top_at_lookup base k v :
  top_at base !! k = Some v →
  ∃ i, i < 6 ∧ v = VRef (base + i) ∧ categories !! i = Some k.
Proof.
  unfold top_at, dict_of. cbn [foldl fst snd]. intros Hk.
  repeat (apply lookup_insert_Some in Hk as [[<- <-]|[_ Hk]];
          [first [ exists 0; rewrite Nat.add_0_r; split; [lia|done]
                 | eexists; split; [|done]; lia ]|]).
  by rewrite lookup_empty in Hk.
Qed.

Lemma top_at_categories base el :
  el ∈ categories → is_Some (top_at base !! el).
Proof.
  unfold categories. rewrite !elem_of_cons, elem_of_nil.
  intros [->|[->|[->|[->|[->|[->|[]]]]]]]; vm_compute; eauto.
Qed.

Lemma omap_top_at (f : value → option (gmap string value)) base d0 d1 d2 d3 d4 d5 :
  f (VRef base) = Some d0 → f (VRef (base + 1)) = Some d1 →
  f (VRef (base + 2)) = Some d2 → f (VRef (base + 3)) = Some d3 →
  f (VRef (base + 4)) = Some d4 → f (VRef (base + 5)) = Some d5 →
  omap f (top_at base)
  = {[ "document" := d0; "title" := d1; "heading1" := d2;
       "heading2" := d3; "body" := d4; "signature" := d5 ]}.
Proof.
  intros H0 H1 H2 H3 H4 H5. unfold top_at, dict_of. cbn [foldl fst snd].
  rewrite (omap_insert_Some f _ _ _ _ H5), (omap_insert_Some f _ _ _ _ H4),
    (omap_insert_Some f _ _ _ _ H3), (omap_insert_Some f _ _ _ _ H2),
    (omap_insert_Some f _ _ _ _ H1), (omap_insert_Some f _ _ _ _ H0), omap_empty.
  apply six_records.
Qed.

Lemma built_view h h' c cfg : built h h' c cfg → view h' c = cfg.
Proof.
  intros (d0 & d1 & d2 & d3 & d4 & d5 & -> & -> & ->).
  unfold view. rewrite lookup_alloc. change ([d0; d1; d2; d3; d4; d5; top_at (length h)] !! 6) with (Some (top_at (length h))).
  apply omap_top_at; cbn [deref];
    [by rewrite <- (Nat.add_0_r (length h)), lookup_alloc
    | by rewrite lookup_alloc ..].
Qed.

Lemma built_well_formed h h' c cfg : built h h' c cfg → well_formed_at h' c.
Proof.
  intros (d0 & d1 & d2 & d3 & d4 & d5 & -> & -> & _).
  exists (top_at (length h)). split; [by rewrite lookup_alloc|].
  split; [apply top_at_categories|]. split.
  - intros k v (i & Hi & -> & _)%top_at_lookup.
    eexists. split; [done|]. split; [lia|].
    rewrite lookup_alloc. apply lookup_lt_is_Some. simpl. lia.
  - intros k1 k2 l (i & _ & Hl1 & Hk1)%top_at_lookup
                   (j & _ & Hl2 & Hk2)%top_at_lookup.
    assert (i = j) as -> by (simplify_eq; lia). congruence.
Qed.

(** The objects that existed before are still there, unchanged. *)
Lemma built_prefix h h' c cfg : built h h' c cfg → take (length h) h' = h.
Proof.
  intros (d0 & d1 & d2 & d3 & d4 & d5 & -> & _ & _).
  by rewrite take_app_length.
Qed.

(** ** Writing one field *)

Lemma snapshot_lookup g el top :
  heap g !! style_config g = Some top →
  snapshot g !! el = top !! el ≫= deref (heap g).
Proof. intros Htop. unfold snapshot, view. by rewrite Htop, lookup_omap. Qed.

(** [setitem] never leaves a half-done write behind an exception. *)
Lemma setitem_raise el key v g e g' :
  setitem el key v g = Raise e g' → g' = g.
Proof.
  unfold setitem. intros Hr. case_match; by simplify_eq.
Qed.

(** On a well-formed configuration, [setitem] writes the one field of the
    one record, and the configuration stays well-formed. *)
Lemma setitem_written g el key v :
  well_formed g → is_Some (snapshot g !! el) →
  ∃ d h',
    snapshot g !! el = Some d ∧
    setitem el key v g = Return tt (set_heap h' g) ∧
    view h' (style_config g) = <[el := <[key := v]> d]> (snapshot g) ∧
    well_formed_at h' (style_config g).
Proof.
  intros (top & Htop & Hcat & Href & Hinj) [d Hd].
  pose proof Hd as Hd'. rewrite (snapshot_lookup _ _ _ Htop) in Hd'.
  destruct (top !! el) as [x|] eqn:Hel; [|done]. cbn in Hd'.
  destruct (Href _ _ Hel) as (l & -> & Hl & _). cbn in Hd'.
  assert (l < length (heap g)) as Hlen by (by eapply lookup_lt_Some).
  exists d, (<[l := <[key := v]> d]> (heap g)).
  split; [done|]. split; [unfold setitem, store; by rewrite Htop, Hel, Hd'|].
  assert (<[l := <[key := v]> d]> (heap g) !! style_config g = Some top)
    as Htop' by (by rewrite list_lookup_insert_ne).
  split.
  - unfold view. rewrite Htop'. apply map_eq. intros k.
    rewrite lookup_omap, lookup_insert. case_decide as Hk.
    + subst k. rewrite Hel. cbn. by rewrite list_lookup_insert_eq.
    + rewrite (snapshot_lookup _ _ _ Htop).
      destruct (top !! k) as [y|] eqn:Hy; [|done]. cbn.
      destruct (Href _ _ Hy) as (l' & -> & _ & _). cbn.
      rewrite list_lookup_insert_ne; [done|].
      intros <-. apply Hk. by eapply Hinj.
  - exists top. split; [done|]. split; [done|]. split; [|done].
    intros k y Hy. destruct (Href _ _ Hy) as (l' & -> & Hl' & Hsome).
    exists l'. split; [done|]. split; [done|].
    apply lookup_lt_is_Some. rewrite length_insert.
    by apply lookup_lt_is_Some.
Qed.

Lemma setitem_missing g el key v :
  well_formed g → snapshot g !! el = None →
  setitem el key v g = Raise (KeyError el) g.
Proof.
  intros (top & Htop & Hcat & Href & Hinj) Hd.
  rewrite (snapshot_lookup _ _ _ Htop) in Hd. unfold setitem, store.
  rewrite Htop.
  destruct (top !! el) as [x|] eqn:Hel; [|done].
  destruct (Href _ _ Hel) as (l & -> & _ & [d Hl]). cbn in Hd. congruence.
Qed.

Lemma well_formed_categories g el :
  well_formed g → el ∈ categories → is_Some (snapshot g !! el).
Proof.
  intros (top & Htop & Hcat & Href & Hinj) Hel.
  rewrite (snapshot_lookup _ _ _ Htop).
  destruct (Hcat _ Hel) as [x Hx]. rewrite Hx.
  destruct (Href _ _ Hx) as (l & -> & _ & Hl). done.
Qed.

(** ** Writes by whoever holds the configuration *)

(** One assignment [config[element][key] = value] through the reference in
    [self.style_config]; an exception leaves the object as it was. *)
Definition write (w : string * string * value) (g : gui) : gui :=
  state_of (setitem w.1.1 w.1.2 w.2 g).

Lemma write_style_config w g : style_config (write w g) = style_config g.
Proof.
  unfold write, setitem. by case_match.
Qed.

Lemma write_length w g : length (heap (write w g)) = length (heap g).
Proof.
  unfold write, setitem, store.
  repeat case_match; simplify_eq; cbn; by rewrite ?length_insert.
Qed.

Lemma write_well_formed w g : well_formed g → well_formed (write w g).
Proof.
  intros Hwf. unfold write.
  destruct (snapshot g !! w.1.1) as [d|] eqn:Hd.
  - destruct (setitem_written g w.1.1 w.1.2 w.2 Hwf) as (? & h' & _ & -> & _ & Hwf');
      [by eexists|done].
  - by rewrite setitem_missing.
Qed.

(** Objects allocated after those of a well-formed configuration are out of
    the reach of a write through it. *)
Lemma write_extended w g g' block :
  well_formed g → heap g' = heap g ++ block →
  style_config g' = style_config g →
  heap (write w g') = heap (write w g) ++ block.
Proof.
  intros (top & Htop & Hcat & Href & Hinj) Hh Hc.
  unfold write, setitem, store. rewrite Hh, Hc, Htop.
  rewrite (lookup_app_l_Some _ _ _ _ Htop).
  destruct (top !! w.1.1) as [x|] eqn:Hel; [|done].
  destruct (Href _ _ Hel) as (l & -> & _ & [d Hl]).
  rewrite Hl, (lookup_app_l_Some _ _ _ _ Hl). cbn.
  rewrite insert_app_l; [done|]. by eapply lookup_lt_Some.
Qed.

Lemma writes_well_formed ws g :
  well_formed g → well_formed (foldl (flip write) g ws).
Proof.
  revert g. induction ws as [|w ws IH]; intros g Hwf; [done|].
  cbn. by apply IH, write_well_formed.
Qed.

Lemma writes_length ws g :
  length (heap (foldl (flip write) g ws)) = length (heap g).
Proof.
  revert g. induction ws as [|w ws IH]; intros g; [done|].
  cbn. by rewrite IH, write_length.
Qed.

Lemma writes_extended ws g g' block :
  well_formed g → heap g' = heap g ++ block →
  style_config g' = style_config g →
  heap (foldl (flip write) g' ws) = heap (foldl (flip write) g ws) ++ block.
Proof.
  revert g g'. induction ws as [|w ws IH]; intros g g' Hwf Hh Hc; [done|].
  cbn. apply IH.
  - by apply write_well_formed.
  - by apply write_extended.
  - by rewrite !write_style_config.
Qed.

(** A well-formed configuration reads the same after later allocations. *)
Lemma view_app h block c :
  well_formed_at h c → view (h ++ block) c = view h c.
Proof.
  intros (top & Htop & Hcat & Href & Hinj). unfold view.
  rewrite Htop, (lookup_app_l_Some _ _ _ _ Htop).
  apply map_eq. intros k. rewrite !lookup_omap.
  destruct (top !! k) as [x|] eqn:Hk; [|done].
  destruct (Href _ _ Hk) as (l & -> & _ & [d Hl]). cbn.
  by rewrite Hl, (lookup_app_l_Some _ _ _ _ Hl).
Qed.

(** ** Loading a template *)

Lemma reset_styles_built g :
  ∃ h', reset_styles g
        = Return tt
            (add_effect (ShowInfo "重置")
               (set_template_var "default"
                  (set_style_config (length (heap g) + 6) (set_heap h' g)))) ∧
        built (heap g) h' (length (heap g) + 6) default_config.
Proof.
  destruct (get_default_style_built g) as (h' & Hrun & Hbuilt).
  exists h'. split; [|done].
  unfold reset_styles. cbv [mbind M_bind]. by rewrite Hrun.
Qed.

Lemma on_template_change_default g :
  template_var g = "default" → on_template_change g = reset_styles g.
Proof.
  intros Ht. unfold on_template_change. cbv [mbind M_bind gets].
  rewrite Ht. by rewrite decide_True.
Qed.

Lemma on_template_change_formal g :
  template_var g = "formal" → on_template_change g = apply_formal_style g.
Proof.
  intros Ht. unfold on_template_change. cbv [mbind M_bind gets].
  rewrite Ht. rewrite decide_False by done. by rewrite decide_True.
Qed.

Lemma on_template_change_academic g :
  template_var g = "academic" → on_template_change g = apply_academic_style g.
Proof.
  intros Ht. unfold on_template_change. cbv [mbind M_bind gets].
  rewrite Ht. do 2 rewrite decide_False by done. by rewrite decide_True.
Qed.

Lemma on_template_change_other g :
  template_var g ≠ "default" → template_var g ≠ "formal" →
  template_var g ≠ "academic" → on_template_change g = Return tt g.
Proof.
  intros H1 H2 H3. unfold on_template_change. cbv [mbind M_bind gets].
  by rewrite !decide_False.
Qed.

(** The configuration of a template radio button; [Custom] has none. *)
Definition template_config (c : template_choice)
    : option (gmap string (gmap string value)) :=
  match c with
  | Default => Some default_config
  | Formal => Some formal_config
  | Academic => Some academic_config
  | Custom => None
  end.

(** What a state looks like once a template has been loaded over [g]: seven
    new objects after those of [g], the label set. *)
Definition loaded (g g' : gui) (name : string)
    (cfg : gmap string (gmap string value)) : Prop :=
  built (heap g) (heap g') (style_config g') cfg ∧
  style_config g' = length (heap g) + 6 ∧
  template_var g' = name.

Section Loading.
Context `{Builtins}.

Lemma pick_template_loaded c cfg g :
  template_config c = Some cfg →
  loaded g (step (PickTemplate c) g) (template_value c) cfg.
Proof.
  intros Hc. unfold step, callback. cbv [mbind M_bind modify].
  destruct c; cbn [template_config template_value] in *;
    [injection Hc as <- ..|discriminate].
  - rewrite on_template_change_default by done.
    destruct (reset_styles_built (set_template_var "default" g))
      as (h' & -> & Hb). by repeat split.
  - rewrite on_template_change_formal by done.
    destruct (apply_formal_style_built (set_template_var "formal" g))
      as (h' & -> & Hb). by repeat split.
  - rewrite on_template_change_academic by done.
    destruct (apply_academic_style_built (set_template_var "academic" g))
      as (h' & -> & Hb). by repeat split.
Qed.

Lemma click_reset_loaded g : loaded g (step ClickReset g) "default" default_config.
Proof.
  unfold step, callback.
  destruct (reset_styles_built g) as (h' & -> & Hb). by repeat split.
Qed.

End Loading.

Lemma loaded_snapshot g g' name cfg : loaded g g' name cfg → snapshot g' = cfg.
Proof. intros (Hb & _ & _). by eapply built_view. Qed.

Lemma loaded_well_formed g g' name cfg : loaded g g' name cfg → well_formed g'.
Proof. intros (Hb & _ & _). by eapply built_well_formed. Qed.

(** ** What an event does to the configuration *)

(** [g'] holds the same configuration objects as [g]. *)
Definition same_config (g g' : gui) : Prop :=
  heap g' = heap g ∧ style_config g' = style_config g.

Ltac run_method :=
  cbv [step callback update_margin update_style update_font update_size
       update_bold update_alignment update_indent select_file preview_config
       mbind M_bind mret M_ret modify gets raise widget_of spin_get float_ int_
       try_except_ValueError state_of].

Ltac simpl_state :=
  cbn [heap style_config input_file template_var spins font_size_combo
       spacing_var font_combos bold_vars align_vars indent_var effects
       set_heap set_style_config set_input_file set_template_var set_spins
       set_font_size_combo set_spacing_var set_font_combos set_bold_vars
       set_align_vars set_indent_var set_effects add_effect set_combo
       combo_family combo_size fst snd fmap option_fmap option_map].

Ltac run_callback := run_method; cbv [setitem write state_of]; simpl_state.

Ltac use_known :=
  simpl_state;
  repeat (first [ rewrite lookup_insert_eq
                | match goal with
                  | E : ?x = _ |- context [?x] => rewrite E
                  end ];
          simpl_state).

Ltac finish_callback :=
  use_known; repeat (case_match; simplify_eq; use_known);
  unfold same_config; simpl_state; done.

Ltac written el key v :=
  right; left; exists el, key, v; split; [by constructor|];
  run_callback; finish_callback.

Section Edits.
Context `{Builtins}.

(** The field an event writes, and the value it writes there. *)
Inductive edits : event → string → string → value → Prop :=
  | edits_margin m text q :
      py_float text = Some q →
      edits (Spin m text) "document" (margin_key m) (VFloat q)
  | edits_document_size text :
      edits (PickDocFontSize text) "document" "font_size" (VInt 16)
  | edits_spacing s :
      edits (PickSpacing s) "document" "line_spacing" (spacing_value s)
  | edits_font t text :
      edits (PickFont t text) (element_key t) "font_family" (VStr text)
  | edits_size t text n :
      py_int text = Some n →
      edits (PickSize t text) (element_key t) "font_size" (VInt n)
  | edits_bold t checked :
      edits (ToggleBold t checked) (element_key t) "bold" (VBool checked)
  | edits_alignment t a :
      edits (PickAlignment t a) (element_key t) "alignment"
            (VStr (align_value a))
  | edits_indent checked :
      edits (ToggleIndent checked) "body" "first_line_indent"
            (VInt (if checked then 2 else 0)).

Lemma step_heap ev g :
  same_config g (step ev g) ∨
  (∃ el key v, edits ev el key v ∧ same_config (write (el, key, v) g) (step ev g)) ∨
  (∃ name cfg, loaded g (step ev g) name cfg ∧
               cfg ∈ [default_config; formal_config; academic_config]).
Proof.
  destruct ev as [c|m text|text|s|t text|t text|t b|t a|b|f| |w| ].
  - destruct c.
    + right; right. exists "default", default_config.
      split; [by apply (pick_template_loaded Default)|set_solver].
    + right; right. exists "formal", formal_config.
      split; [by apply (pick_template_loaded Formal)|set_solver].
    + right; right. exists "academic", academic_config.
      split; [by apply (pick_template_loaded Academic)|set_solver].
    + left. unfold step, callback. cbv [mbind M_bind modify].
      by rewrite on_template_change_other.
  - destruct (py_float text) as [q|] eqn:Hq.
    + written "document" (margin_key m) (VFloat q).
    + left. run_callback. finish_callback.
  - written "document" "font_size" (VInt 16).
  - written "document" "line_spacing" (spacing_value s).
  - destruct (font_combos g) as [ws|] eqn:Hws.
    + written (element_key t) "font_family" (VStr text).
    + left. run_callback. finish_callback.
  - destruct (font_combos g) as [ws|] eqn:Hws;
      [destruct (py_int text) as [n|] eqn:Hn|].
    + written (element_key t) "font_size" (VInt n).
    + left. run_callback. finish_callback.
    + left. run_callback. finish_callback.
  - destruct (bold_vars g) as [ws|] eqn:Hws.
    + written (element_key t) "bold" (VBool b).
    + left. run_callback. finish_callback.
  - destruct (align_vars g) as [ws|] eqn:Hws.
    + written (element_key t) "alignment" (VStr (align_value a)).
    + left. run_callback. finish_callback.
  - destruct (indent_var g) as [b0|] eqn:Hb.
    + written "body" "first_line_indent" (VInt (if b then 2 else 0)).
    + left. run_callback. finish_callback.
  - left. run_callback. finish_callback.
  - left. run_callback. finish_callback.
  - left. unfold step, callback, format_document.
    cbv [mbind M_bind gets modify try_except_Exception when_fails mret M_ret
         raise state_of].
    finish_callback.
  - right; right. exists "default", default_config.
    split; [apply click_reset_loaded|set_solver].
Qed.

End Edits.

Lemma same_config_snapshot g g' : same_config g g' → snapshot g' = snapshot g.
Proof. intros [Hh Hc]. unfold snapshot. by rewrite Hh, Hc. Qed.

Lemma same_config_well_formed g g' :
  same_config g g' → well_formed g → well_formed g'.
Proof. intros [Hh Hc]. unfold well_formed. by rewrite Hh, Hc. Qed.

(** A write changes the one field, or nothing when the category is missing. *)
Lemma write_snapshot el key v g :
  well_formed g →
  (snapshot g !! el = None ∧ snapshot (write (el, key, v) g) = snapshot g) ∨
  (∃ d, snapshot g !! el = Some d ∧
        snapshot (write (el, key, v) g) = <[el := <[key := v]> d]> (snapshot g)).
Proof.
  intros Hwf. unfold write. cbn [fst snd].
  destruct (snapshot g !! el) as [d|] eqn:Hd.
  - right. exists d. split; [done|].
    destruct (setitem_written g el key v Hwf) as (d' & h' & Hd' & -> & Hv & _);
      [by eexists|].
    by simplify_eq.
  - left. split; [done|]. by rewrite setitem_missing.
Qed.

Section Steps.
Context `{Builtins}.

(** Every event keeps the configuration well-formed, and either leaves its
    content alone, or writes the one field named by [edits], or replaces it
    by one of the three templates. *)
Lemma step_config ev g :
  well_formed g →
  well_formed (step ev g) ∧
  (snapshot (step ev g) = snapshot g ∨
   (∃ el key v d,
      edits ev el key v ∧ snapshot g !! el = Some d ∧
      snapshot (step ev g) = <[el := <[key := v]> d]> (snapshot g)) ∨
   snapshot (step ev g) ∈ [default_config; formal_config; academic_config]).
Proof.
  intros Hwf.
  destruct (step_heap ev g) as [Hs|[(el & key & v & He & Hs)|(n & cfg & Hl & Hin)]].
  - split; [by eapply same_config_well_formed|].
    left. by apply same_config_snapshot.
  - split.
    { eapply same_config_well_formed; [done|]. by apply write_well_formed. }
    rewrite (same_config_snapshot _ _ Hs).
    destruct (write_snapshot el key v g Hwf) as [[_ ->]|(d & Hd & ->)]; eauto 10.
  - split; [by eapply loaded_well_formed|].
    right; right. by rewrite (loaded_snapshot _ _ _ _ Hl).
Qed.

Lemma run_well_formed evs g : well_formed g → well_formed (run evs g).
Proof.
  revert g. induction evs as [|ev evs IH]; intros g Hwf; [done|].
  cbn. apply IH. by apply step_config.
Qed.

End Steps.

(** ** The invariant of the data model *)

Definition positive_number (v : option value) : bool :=
  match v with
  | Some (VFloat q) => (0 <? Qnum q)%Z
  | Some (VInt n) => (0 <? n)%Z
  | _ => false
  end.

Definition positive_int (v : option value) : bool :=
  match v with Some (VInt n) => (0 <? n)%Z | _ => false end.

Definition natural_int (v : option value) : bool :=
  match v with Some (VInt n) => (0 <=? n)%Z | _ => false end.

Definition text_among (domain : list string) (v : option value) : bool :=
  match v with Some (VStr s) => bool_decide (s ∈ domain) | _ => false end.

Definition line_spacing_ok (v : option value) : bool :=
  match v with
  | Some (VFloat q) => bool_decide (q ∈ [Qred 1.0; Qred 1.5; Qred 2.0])
  | Some (VStr s) => bool_decide (s = "fixed")
  | _ => false
  end.

Definition document_ok (d : gmap string value) : bool :=
  positive_number (d !! "margin_top") && positive_number (d !! "margin_bottom")
  && positive_number (d !! "margin_left")
  && positive_number (d !! "margin_right")
  && line_spacing_ok (d !! "line_spacing") && positive_int (d !! "font_size").

Definition element_ok (d : gmap string value) : bool :=
  positive_int (d !! "font_size")
  && text_among ["left"; "center"; "right"; "justify"] (d !! "alignment").

(** Modelled from the spec: the invariant of a StyleConfiguration (§3), which
    ConfigValidator is to check; the program has no validator.  All six
    categories are present, [body] carries [first_line_indent], font sizes and
    margins are strictly positive, alignments and the line spacing belong to
    their domains. *)
Definition valid_config (c : gmap string (gmap string value)) : bool :=
  from_option document_ok false (c !! "document")
  && from_option element_ok false (c !! "title")
  && from_option element_ok false (c !! "heading1")
  && from_option element_ok false (c !! "heading2")
  && from_option
       (λ d, element_ok d && natural_int (d !! "first_line_indent"))
       false (c !! "body")
  && from_option element_ok false (c !! "signature").

(** [self.style_config = self.get_default_style()], as in [__init__]. *)
Definition init_style_config : M unit :=
  c ← get_default_style;
  modify (set_style_config c).

Lemma init_style_config_built g :
  built (heap g) (heap (state_of (init_style_config g)))
        (style_config (state_of (init_style_config g))) default_config.
Proof.
  unfold init_style_config. cbv [mbind M_bind modify].
  by destruct (get_default_style_built g) as (h' & -> & Hb).
Qed.

(** ** A window to try things on *)

(** The widgets as [setup_ui] lays them out, every one showing its default,
    with the three tabs in place. *)
Definition window : gui :=
  {| heap := []; style_config := 0; input_file := None;
     template_var := "default";
     spins := {[ "margin_top" := "3.7"; "margin_bottom" := "3.5";
                 "margin_left" := "2.8"; "margin_right" := "2.6" ]};
     font_size_combo := "16"; spacing_var := "1.5";
     font_combos :=
       Some {[ "title" := {| combo_family := "黑体"; combo_size := "22" |};
               "heading1" := {| combo_family := "黑体"; combo_size := "16" |};
               "body" := {| combo_family := "仿宋_GB2312"; combo_size := "16" |} ]};
     bold_vars := Some {[ "title" := true; "heading1" := true; "body" := false ]};
     align_vars :=
       Some {[ "title" := "center"; "heading1" := "left"; "body" := "left" ]};
     indent_var := Some true;
     effects := [] |}.

(** The window once the constructor has stored the default configuration. *)
Definition sample : gui := state_of (init_style_config window).

Lemma sample_well_formed : well_formed sample.
Proof. eapply built_well_formed, init_style_config_built. Qed.

Lemma sample_snapshot : snapshot sample = default_config.
Proof. eapply built_view, init_style_config_built. Qed.

(** ** Reading a field after a write *)

Lemma field_written g el key v d rest :
  snapshot g = <[el := <[key := v]> d]> rest → field g el key = Some v.
Proof.
  intros Hs. unfold field. rewrite Hs, lookup_insert_eq. cbn.
  apply lookup_insert_eq.
Qed.

(** [setitem] from a state that differs from a well-formed one by its
    widgets only. *)
Lemma setitem_from g g1 el key v :
  well_formed g → same_config g g1 → el ∈ categories →
  ∃ d h',
    snapshot g !! el = Some d ∧
    setitem el key v g1 = Return tt (set_heap h' g1) ∧
    view h' (style_config g1) = <[el := <[key := v]> d]> (snapshot g).
Proof.
  intros Hwf Hs Hel.
  pose proof (same_config_well_formed _ _ Hs Hwf) as Hwf1.
  destruct (setitem_written g1 el key v Hwf1) as (d & h' & Hd & Hrun & Hv & _).
  { by apply well_formed_categories. }
  rewrite (same_config_snapshot _ _ Hs) in Hd, Hv. eauto.
Qed.

Lemma element_key_category t : element_key t ∈ categories.
Proof. destruct t; cbn; set_solver. Qed.

Lemma document_category : "document" ∈ categories.
Proof. set_solver. Qed.

(** The body's indent in each template. *)
Lemma template_indent cfg :
  cfg ∈ [default_config; formal_config; academic_config] →
  cfg !! "body" ≫= (.!! "first_line_indent") = Some (VInt 2).
Proof.
  rewrite !elem_of_cons, elem_of_nil.
  intros [->|[->|[->|[]]]]; by_evaluation.
Qed.

(** * The claims *)

Section Claims.
Context `{Builtins}.

(** C3. After any sequence of edits, loading the default template (the
    [default] radio button or the reset button) replaces the live
    configuration with exactly the literal default configuration, and the
    active-template label becomes [default]. *)
Theorem load_default_restores_literal (g : gui) (evs : list event) :
  let g1 := step (PickTemplate Default) (run evs g) in
  let g2 := step ClickReset (run evs g) in
  (snapshot g1 = default_config ∧ template_var g1 = "default") ∧
  (snapshot g2 = default_config ∧ template_var g2 = "default").
Proof.
  cbv zeta. split.
  - pose proof (pick_template_loaded Default _ (run evs g) eq_refl) as Hl.
    split; [by eapply loaded_snapshot|apply Hl].
  - pose proof (click_reset_loaded (run evs g)) as Hl.
    split; [by eapply loaded_snapshot|apply Hl].
Qed.

(** C4. Each of the three built-in templates yields a configuration that
    satisfies the invariant of the data model: six categories, the indent of
    the body, positive font sizes and margins, alignments and line spacing in
    their domains. *)
Theorem builtin_templates_valid (g : gui) :
  valid_config (snapshot (state_of (init_style_config g))) = true ∧
  valid_config (snapshot (step (PickTemplate Default) g)) = true ∧
  valid_config (snapshot (step (PickTemplate Formal) g)) = true ∧
  valid_config (snapshot (step (PickTemplate Academic) g)) = true.
Proof.
  unfold snapshot at 1. rewrite (built_view _ _ _ _ (init_style_config_built g)).
  rewrite (loaded_snapshot _ _ _ _ (pick_template_loaded Default _ g eq_refl)).
  rewrite (loaded_snapshot _ _ _ _ (pick_template_loaded Formal _ g eq_refl)).
  rewrite (loaded_snapshot _ _ _ _ (pick_template_loaded Academic _ g eq_refl)).
  split_conj; by_evaluation.
Qed.

(** C6. Loading formal, then academic, then default leaves, after each load,
    exactly the configuration that loading that template gives from any
    other state: nothing of the earlier configuration survives. *)
Theorem load_sequence_matches_fresh (g fresh : gui) :
  let g1 := step (PickTemplate Formal) g in
  let g2 := step (PickTemplate Academic) g1 in
  let g3 := step (PickTemplate Default) g2 in
  (snapshot g1 = formal_config ∧
   snapshot g1 = snapshot (step (PickTemplate Formal) fresh)) ∧
  (snapshot g2 = academic_config ∧
   snapshot g2 = snapshot (step (PickTemplate Academic) fresh)) ∧
  (snapshot g3 = default_config ∧
   snapshot g3 = snapshot (step (PickTemplate Default) fresh)).
Proof.
  cbv zeta.
  split_conj;
    by rewrite ?(loaded_snapshot _ _ _ _
                   (pick_template_loaded Formal _ _ eq_refl)),
               ?(loaded_snapshot _ _ _ _
                   (pick_template_loaded Academic _ _ eq_refl)),
               ?(loaded_snapshot _ _ _ _
                   (pick_template_loaded Default _ _ eq_refl)).
Qed.

(** C5. Resolving a template twice yields independent values.  The caller
    may write any fields of the first copy, before the later resolve or
    after it, through the reference it holds: the later resolve still gives
    the template, the first copy reads as the caller left it, and the later
    copy is not changed by the writes that follow. *)
Theorem resolve_twice_independent (g : gui) (c : template_choice)
    (cfg : gmap string (gmap string value))
    (before after : list (string * string * value)) :
  template_config c = Some cfg →
  let g1 := step (PickTemplate c) g in
  let g2 := foldl (flip write) g1 before in
  let g3 := step (PickTemplate c) g2 in
  let g4 := foldl (flip write) (set_style_config (style_config g2) g3) after in
  snapshot g3 = cfg ∧
  view (heap g3) (style_config g2) = snapshot g2 ∧
  view (heap g4) (style_config g3) = cfg.
Proof.
  intros Hc g1 g2 g3 g4.
  assert (well_formed g2) as Hwf.
  { apply writes_well_formed.
    eapply loaded_well_formed, (pick_template_loaded c cfg g Hc). }
  pose proof (pick_template_loaded c cfg g2 Hc) as Hl. fold g3 in Hl.
  split; [by eapply loaded_snapshot|].
  destruct Hl as ((d0 & d1 & d2 & d3 & d4 & d5 & Hh & Hloc & Hcfg) & _ & _).
  split; [rewrite Hh; by apply view_app|].
  assert (heap g4
          = heap (foldl (flip write) g2 after)
            ++ [d0; d1; d2; d3; d4; d5; top_at (length (heap g2))]) as Hh4.
  { by apply writes_extended. }
  apply (built_view (heap (foldl (flip write) g2 after))).
  exists d0, d1, d2, d3, d4, d5. by rewrite writes_length.
Qed.

(** C7, as amended.  A template name outside default, formal and academic
    (the radio buttons offer [custom]) is ignored: [on_template_change]
    returns without raising, shows nothing, and leaves the object, its
    configuration included, as it was. *)
Theorem other_template_is_ignored (g : gui) :
  template_var g ∉ ["default"; "formal"; "academic"] →
  on_template_change g = Return tt g.
Proof.
  intros Hn. apply on_template_change_other; intros Ht; apply Hn; rewrite Ht;
    set_solver.
Qed.

(** C9. Whatever size is picked in the font-size control of the document
    tab, the edit writes the constant 16 into [document.font_size]; the
    control keeps the text that was picked. *)
Theorem document_font_size_control_writes_16 (g : gui) (text : string) :
  well_formed g →
  let g' := step (PickDocFontSize text) g in
  font_size_combo g' = text ∧ field g' "document" "font_size" = Some (VInt 16).
Proof.
  intros Hwf.
  destruct (setitem_from g (set_font_size_combo text g) "document" "font_size"
              (VInt 16) Hwf) as (d & h' & Hd & Hrun & Hv);
    [done|apply document_category|].
  cbv zeta. run_method. rewrite Hrun. simpl_state.
  split; [done|]. by eapply field_written.
Qed.

(** The indent of the body is 0 or 2. *)
Definition indent_ok (g : gui) : Prop :=
  field g "body" "first_line_indent" = Some (VInt 0) ∨
  field g "body" "first_line_indent" = Some (VInt 2).

Lemma step_indent_ok ev g :
  well_formed g → indent_ok g → indent_ok (step ev g).
Proof.
  intros Hwf Hok. unfold indent_ok, field in *.
  destruct (step_config ev g Hwf)
    as [_ [->|[(el & key & v & d & He & Hd & ->)|Hin]]]; [done| |].
  - destruct (decide (el = "body")) as [->|Hel];
      [|by rewrite lookup_insert_ne].
    rewrite lookup_insert_eq. rewrite Hd in Hok. cbn in *.
    destruct (decide (key = "first_line_indent")) as [->|Hkey];
      [|by rewrite lookup_insert_ne].
    rewrite lookup_insert_eq.
    inversion He as [| | | | | | |checked]; subst;
      try discriminate;
      try match goal with
          | E : element_key ?t = _ |- _ => by destruct t
          end.
    destruct checked; eauto.
  - right. by apply template_indent.
Qed.

(** C10. The indent of the body is 2 in the initial configuration, and it
    is 0 or 2 after any sequence of operations: a template load sets it to
    2, the indent checkbox writes 2 or 0, and no other operation writes it. *)
Theorem first_line_indent_invariant (g : gui) (evs : list event) :
  let start := state_of (init_style_config g) in
  field start "body" "first_line_indent" = Some (VInt 2) ∧
  indent_ok (run evs start).
Proof.
  cbv zeta.
  assert (field (state_of (init_style_config g)) "body" "first_line_indent"
          = Some (VInt 2)) as Hstart.
  { unfold field, snapshot.
    rewrite (built_view _ _ _ _ (init_style_config_built g)).
    apply template_indent. set_solver. }
  split; [done|].
  assert (well_formed (state_of (init_style_config g))) as Hwf
    by (eapply built_well_formed, init_style_config_built).
  assert (indent_ok (state_of (init_style_config g))) as Hok by (by right).
  revert Hwf Hok. generalize (state_of (init_style_config g)).
  induction evs as [|ev evs IH]; intros g0 Hwf Hok; [done|].
  cbn. apply IH; [by apply step_config|by apply step_indent_ok].
Qed.



End Claims.

(** ** The claims on the sample window

    From here on the texts are converted by [decimal_texts]. *)

(** ** The texts the widgets deliver *)

Definition numerals (first count : nat) : list string :=
  (λ n, pretty (Z.of_nat n)) <$> seq first count.

(** What a margin spinbox shows when its command runs.  It is declared
    [from_=0.5, to=10] and steps by Tk's default increment of 1; Tk runs the
    command after it has added or subtracted the increment, limited the
    result to the range and written it without decimals.  So the command
    sees a whole number from 0, which is how the lower limit 0.5 is written,
    to 10. *)
Definition spin_texts : list string := numerals 0 11.

(** [str(i) for i in range(10, 26)], the sizes of the document tab. *)
Definition document_size_texts : list string := numerals 10 16.

(** [str(i) for i in range(8, 48)], the sizes of an element tab. *)
Definition size_texts : list string := numerals 8 40.





(** Every text the spinboxes and the size comboboxes deliver converts. *)
Example deliverable_texts_convert :
  forallb (λ text, bool_decide (is_Some (py_float text))) spin_texts
  && forallb (λ text, bool_decide (is_Some (py_int text)))
       (document_size_texts ++ size_texts)
  = true.
Proof. by_evaluation. Qed.

(** [update_margin] never touches the label, whatever it writes. *)
Lemma update_margin_label `{Builtins} key default g :
  template_var (state_of (update_margin key default g)) = template_var g.
Proof. run_callback. finish_callback. Qed.

(** C1.  On the sample window, whose label is [default], one click on the
    up arrow of the top-margin spinbox, which then shows 5, writes 5 into
    [document.margin_top] and leaves the label at [default]; the
    line-spacing buttons, which go through [update_style], set it to
    [custom]. *)
Theorem margin_edit_keeps_template_label :
  template_var sample = "default" ∧
  field (step (Spin MarginTop "5") sample) "document" "margin_top"
  = Some (PyFloat 5) ∧
  template_var (step (Spin MarginTop "5") sample) = "default" ∧
  template_var (step (PickSpacing Double) sample) = "custom".
Proof. split_conj; by_evaluation. Qed.



Lemma resolve_twice_independent_witness :
  let g1 := step (PickTemplate Formal) sample in
  let g2 := foldl (flip write) g1 [("title", "font_size", VInt 99)] in
  let g3 := step (PickTemplate Formal) g2 in
  let g4 := foldl (flip write) (set_style_config (style_config g2) g3)
              [("body", "bold", VBool true)] in
  snapshot g3 = formal_config ∧
  view (heap g3) (style_config g2) = snapshot g2 ∧
  view (heap g4) (style_config g3) = formal_config.
Proof.
  exact (resolve_twice_independent sample Formal formal_config
           [("title", "font_size", VInt 99)] [("body", "bold", VBool true)]
           eq_refl).
Defined.

(** C7 fails.  With the [custom] button picked, [on_template_change] returns
    normally: it raises nothing and leaves the object as it was. *)
Lemma custom_template_raises_nothing :
  on_template_change (set_template_var "custom" sample)
  = Return tt (set_template_var "custom" sample).
Proof. by_evaluation. Qed.

Lemma other_template_is_ignored_witness :
  (template_var (set_template_var "custom" sample)
     ∉ ["default"; "formal"; "academic"]) ∧
  on_template_change (set_template_var "custom" sample)
  = Return tt (set_template_var "custom" sample).
Proof.
  assert (template_var (set_template_var "custom" sample)
            ∉ ["default"; "formal"; "academic"]) as Hn.
  { cbn. intros Hin.
    repeat (apply elem_of_cons in Hin as [Heq|Hin]; [discriminate Heq|]).
    by apply elem_of_nil in Hin. }
  split; [exact Hn|].
  exact (other_template_is_ignored (set_template_var "custom" sample) Hn).
Defined.


(** The configurations [DocumentFormatter] was constructed with. *)
Definition handed_over (es : list effect)
    : list (gmap string (gmap string value)) :=
  omap (λ e, match e with NewFormatter c => Some c | _ => None end) es.



Lemma document_font_size_control_writes_16_witness :
  well_formed sample ∧
  font_size_combo (step (PickDocFontSize "12") sample) = "12" ∧
  field (step (PickDocFontSize "12") sample) "document" "font_size"
  = Some (VInt 16).
Proof.
  split; [apply sample_well_formed|].
  exact (document_font_size_control_writes_16 sample "12" sample_well_formed).
Defined.

(** * The rest of the program *)

(** ** Building the window *)

(** How Python and Tk turn a value into the text a widget shows ([str], and
    the conversion Tk applies to what [set] receives) and into the content of
    a [BooleanVar].  The constructor is written over any such conversions. *)
Class Conversions := {
  py_str : value → string;
  tk_text : value → string;
  tk_boolean : value → bool
}.

(** [self.<name>], for an attribute that may not exist. *)
Definition attr {A} (name : string) (get : gui → option A) : M A :=
  λ g, match get g with
       | Some a => Return a g
       | None => Raise (AttributeError name) g
       end.

(** [self.style_config.get(element_key, {})] *)
Definition style_of (element_key : string) : M (gmap string value) :=
  gets (λ g, default ∅ (snapshot g !! element_key)).

Section Setup.
Context `{Conversions}.

(** [setup_document_tab]: the four spinboxes, each showing its default, the
    font-size combobox and the line-spacing variable. *)
Definition setup_document_tab : M unit :=
  modify (λ g,
    set_spins
      (foldl (λ spins m,
                <[margin_key m := tk_text (VFloat (margin_default m))]> spins)
             (spins g) [MarginTop; MarginBottom; MarginLeft; MarginRight]) g);;
  modify (set_font_size_combo "16");;
  modify (set_spacing_var "1.5").

(** [setup_element_tab]: its first statement, [self.font_combos[element_key]
    = {}], needs the attribute [font_combos]. *)
Definition setup_element_tab (element_key : string) : M unit :=
  ws ← attr "font_combos" font_combos;
  style ← style_of element_key;
  let default_font := default (VStr "宋体") (style !! "font_family") in
  style ← style_of element_key;
  let default_size := default (VInt 12) (style !! "font_size") in
  modify (set_font_combos
            (Some (<[element_key := {| combo_family := tk_text default_font;
                                       combo_size := py_str default_size |}]>
                     ws)));;
  bs ← attr "bold_vars" bold_vars;
  style ← style_of element_key;
  modify (set_bold_vars
            (Some (<[element_key :=
                       tk_boolean (default (VBool false) (style !! "bold"))]>
                     bs)));;
  vs ← attr "align_vars" align_vars;
  style ← style_of element_key;
  modify (set_align_vars
            (Some (<[element_key :=
                       tk_text (default (VStr "left") (style !! "alignment"))]>
                     vs)));;
  if decide (element_key = "body") then modify (set_indent_var (Some true))
  else mret tt.

(** [setup_ui], as far as it touches the attributes kept here. *)
Definition setup_ui : M unit :=
  modify (set_template_var "default");;
  setup_document_tab;;
  setup_element_tab "title";;
  setup_element_tab "heading1";;
  setup_element_tab "body".

(** [__init__] *)
Definition __init__ : M unit :=
  init_style_config;;
  modify (set_input_file None);;
  setup_ui.

End Setup.

(** A new instance, before [__init__] has run: no attribute is set yet. *)
Definition blank : gui :=
  {| heap := []; style_config := 0; input_file := None; template_var := "";
     spins := ∅; font_size_combo := ""; spacing_var := "";
     font_combos := None; bold_vars := None; align_vars := None;
     indent_var := None; effects := [] |}.

Section SetupFacts.
Context `{Conversions}.

(** X1.  The constructor cannot finish.  No statement that runs creates
    [font_combos], so on an object without it [__init__] raises
    [AttributeError] at the first [setup_element_tab], after it has stored
    the default configuration and set the label. *)
Theorem constructor_raises_attribute_error (g : gui) :
  font_combos g = None →
  ∃ g', __init__ g = Raise (AttributeError "font_combos") g' ∧
        snapshot g' = default_config ∧ template_var g' = "default" ∧
        font_combos g' = None.
Proof.
  intros Hfc. unfold __init__, setup_ui, setup_document_tab, setup_element_tab.
  pose proof (init_style_config_built g) as Hb.
  assert (font_combos (state_of (init_style_config g)) = None) as Hfc'.
  { unfold init_style_config. cbv [mbind M_bind modify].
    by destruct (get_default_style_built g) as (h' & -> & _). }
  assert (returns (init_style_config g) = true) as Hret.
  { unfold init_style_config. cbv [mbind M_bind modify].
    by destruct (get_default_style_built g) as (h' & -> & _). }
  cbv [mbind M_bind modify attr].
  destruct (init_style_config g) as [[] g1|e g1]; [|done].
  cbn [state_of] in *. simpl_state. rewrite Hfc'.
  eexists. split; [done|]. simpl_state.
  split; [|done]. by eapply built_view.
Qed.

End SetupFacts.

(** ** Edits, one field at a time *)


Section EditFacts.
Context `{Builtins}.


Lemma edits_category ev el key v : edits ev el key v → el ∈ categories.
Proof.
  intros He. inversion He; subst;
    first [apply document_category | apply element_key_category | set_solver].
Qed.





End EditFacts.

(** ** What only a template can change *)

(** The events that load a template: the three template buttons and the
    reset button. *)
Definition loads_template (ev : event) : bool :=
  match ev with
  | PickTemplate Default | PickTemplate Formal | PickTemplate Academic
  | ClickReset => true
  | _ => false
  end.

Section Untabbed.
Context `{Builtins}.

Lemma step_without_load ev g :
  loads_template ev = false →
  same_config g (step ev g) ∨
  (∃ el key v, edits ev el key v ∧ same_config (write (el, key, v) g) (step ev g)).
Proof.
  intros Hl.
  destruct ev as [c|m text|text|s|t text|t text|t b|t a|b|f| |w| ];
    try discriminate Hl.
  - destruct c; try discriminate Hl.
    left. unfold step, callback. cbv [mbind M_bind modify].
    by rewrite on_template_change_other.
  - destruct (py_float text) as [q|] eqn:Hq.
    + right. exists "document", (margin_key m), (VFloat q).
      split; [by constructor|]. run_callback. finish_callback.
    + left. run_callback. finish_callback.
  - right. exists "document", "font_size", (VInt 16).
    split; [constructor|]. run_callback. finish_callback.
  - right. exists "document", "line_spacing", (spacing_value s).
    split; [constructor|]. run_callback. finish_callback.
  - destruct (font_combos g) as [ws|] eqn:Hws; [right|left].
    + exists (element_key t), "font_family", (VStr text).
      split; [constructor|]. run_callback. finish_callback.
    + run_callback. finish_callback.
  - destruct (font_combos g) as [ws|] eqn:Hws;
      [destruct (py_int text) as [n|] eqn:Hn; [right|left]|left].
    + exists (element_key t), "font_size", (VInt n).
      split; [by constructor|]. run_callback. finish_callback.
    + run_callback. finish_callback.
    + run_callback. finish_callback.
  - destruct (bold_vars g) as [ws|] eqn:Hws; [right|left].
    + exists (element_key t), "bold", (VBool b).
      split; [constructor|]. run_callback. finish_callback.
    + run_callback. finish_callback.
  - destruct (align_vars g) as [ws|] eqn:Hws; [right|left].
    + exists (element_key t), "alignment", (VStr (align_value a)).
      split; [constructor|]. run_callback. finish_callback.
    + run_callback. finish_callback.
  - destruct (indent_var g) as [b0|] eqn:Hb; [right|left].
    + exists "body", "first_line_indent", (VInt (if b then 2 else 0)).
      split; [constructor|]. run_callback. finish_callback.
    + run_callback. finish_callback.
  - left. run_callback. finish_callback.
  - left. run_callback. finish_callback.
  - left. unfold step, callback, format_document.
    cbv [mbind M_bind gets modify try_except_Exception when_fails mret M_ret
         raise state_of].
    finish_callback.
Qed.

Lemma edits_tabbed ev el key v :
  edits ev el key v → el ≠ "heading2" ∧ el ≠ "signature".
Proof. intros He. inversion He; subst; try destruct t; done. Qed.

(** X4.  The window has no tab for [heading2] and [signature]: whatever the
    user does, short of loading a template, these two records stay as they
    are. *)
Theorem untabbed_records_keep_their_style evs g :
  well_formed g → Forall (λ ev, loads_template ev = false) evs →
  snapshot (run evs g) !! "heading2" = snapshot g !! "heading2" ∧
  snapshot (run evs g) !! "signature" = snapshot g !! "signature".
Proof.
  intros Hwf Hevs. revert g Hwf.
  induction Hevs as [|ev evs Hev _ IH]; intros g Hwf; [done|].
  change (run (ev :: evs) g) with (run evs (step ev g)).
  destruct (IH (step ev g)) as [-> ->]; [by apply step_config|].
  destruct (step_without_load ev g Hev) as [Hs|(el & key & v & He & Hs)];
    rewrite (same_config_snapshot _ _ Hs); [done|].
  destruct (edits_tabbed _ _ _ _ He) as [Hh Hsig].
  destruct (write_snapshot el key v g Hwf) as [[_ ->]|(d & _ & ->)]; [done|].
  by rewrite !lookup_insert_ne.
Qed.

End Untabbed.

(** ** Widgets that keep the configuration valid *)

(** What the invariant asks of the record of one category. *)
Definition record_ok (el : string) (d : gmap string value) : bool :=
  if decide (el = "document") then document_ok d
  else if decide (el = "body")
       then element_ok d && natural_int (d !! "first_line_indent")
       else element_ok d.

Lemma valid_config_record c el d :
  valid_config c = true → el ∈ categories → c !! el = Some d →
  record_ok el d = true.
Proof.
  unfold valid_config, categories. rewrite !andb_true_iff, !elem_of_cons.
  intros (((((Hdoc & Ht) & Hh1) & Hh2) & Hb) & Hs) Hel Hd.
  destruct Hel as [->|[->|[->|[->|[->|[->|Hel]]]]]];
    [..|by apply elem_of_nil in Hel];
    rewrite Hd in *; by cbn in *.
Qed.

Lemma valid_config_insert c el d d' :
  valid_config c = true → c !! el = Some d → record_ok el d' = true →
  valid_config (<[el := d']> c) = true.
Proof.
  unfold valid_config. rewrite !andb_true_iff.
  intros (((((Hdoc & Ht) & Hh1) & Hh2) & Hb) & Hs) Hd Hok.
  rewrite !lookup_insert.
  unfold record_ok in Hok.
  repeat case_decide; simplify_eq; cbn; by rewrite ?Hok.
Qed.

Section InRange.
Context `{Builtins}.

(** A text that converts gives a positive number.  The spinboxes are
    declared from 0.5 to 10 and the size comboboxes list 8 to 47. *)
Definition in_range (ev : event) : Prop :=
  match ev with
  | Spin _ text => ∀ q, py_float text = Some q → (0 < Qnum q)%Z
  | PickSize _ text => ∀ n, py_int text = Some n → (0 < n)%Z
  | _ => True
  end.

Lemma record_ok_edit ev el key v d :
  edits ev el key v → in_range ev → record_ok el d = true →
  record_ok el (<[key := v]> d) = true.
Proof.
  intros He Hr. unfold record_ok, document_ok, element_ok.
  destruct He as [m text q Hq| |s|t text|t text n Hn|t b|t a|b];
    try destruct m; try destruct t; try destruct s; try destruct a;
    try destruct b; cbn [element_key margin_key spacing_value align_value];
    repeat case_decide; try done;
    rewrite ?andb_true_iff; rewrite ?lookup_insert_eq;
    rewrite ?lookup_insert_ne by done; cbn;
    try (specialize (Hr _ Hq)); try (specialize (Hr _ Hn));
    rewrite ?Z.ltb_lt; intuition (try done).
Qed.

(** X5.  The configuration stays valid as long as every text that converts
    gives a positive number: from a valid, well-formed configuration, no
    sequence of such events leads to a configuration that breaks the
    invariant of the data model. *)
Theorem in_range_events_keep_config_valid evs g :
  well_formed g → valid_config (snapshot g) = true → Forall in_range evs →
  valid_config (snapshot (run evs g)) = true.
Proof.
  intros Hwf Hv Hevs. revert g Hwf Hv.
  induction Hevs as [|ev evs Hev _ IH]; intros g Hwf Hv; [done|].
  change (run (ev :: evs) g) with (run evs (step ev g)).
  destruct (step_config ev g Hwf)
    as [Hwf' [Hs|[(el & key & v & d & He & Hd & Hs)|Hin]]];
    apply IH; try done; rewrite ?Hs; try done.
  - eapply valid_config_insert; [done..|].
    eapply record_ok_edit; [done..|].
    eapply valid_config_record; [done| |done].
    by eapply edits_category.
  - revert Hin. rewrite !elem_of_cons, elem_of_nil.
    intros [->|[->|[->|[]]]]; by_evaluation.
Qed.

End InRange.

(** ** Rendering *)

Ltac run_format :=
  unfold step, callback, format_document;
  cbv [mbind M_bind gets modify try_except_Exception when_fails mret M_ret
       raise state_of returns].

Lemma handed_over_app es es' :
  handed_over (es ++ es') = handed_over es ++ handed_over es'.
Proof. apply omap_app. Qed.

Section Rendering.
Context `{Builtins}.

(** X6.  [format_document] never lets an exception out, and it changes
    nothing of the object: the configuration objects, the selected file and
    the label are as before, and the dialogs and calls it makes come after
    those already made. *)
Theorem format_document_never_raises (g : gui) (w : world) :
  returns (callback (ClickFormat w) g) = true ∧
  same_config g (step (ClickFormat w) g) ∧
  input_file (step (ClickFormat w) g) = input_file g ∧
  template_var (step (ClickFormat w) g) = template_var g ∧
  ∃ more, effects (step (ClickFormat w) g) = effects g ++ more.
Proof.
  run_format.
  repeat (case_match; simplify_eq; simpl_state);
    unfold same_config; simpl_state; split_conj; try done;
    rewrite <- ?app_assoc; eauto using app_nil_r.
Qed.

(** A file is selected, the save dialog gave a path, the module imports. *)
Definition reaches_formatter (g : gui) (w : world) : bool :=
  match input_file g with
  | Some (String _ _) => negb (String.eqb (save_as w) "") && imports w
  | _ => false
  end.

(** X7.  [DocumentFormatter] is constructed, once and with the live
    configuration, exactly when a file is selected, the save dialog gave a
    path and [doc_formatter] imports; otherwise it is not constructed. *)
Theorem formatter_constructed_exactly_when_reached (g : gui) (w : world) :
  handed_over (effects (step (ClickFormat w) g))
  = handed_over (effects g)
    ++ (if reaches_formatter g w then [snapshot g] else []).
Proof.
  unfold reaches_formatter. run_format.
  destruct (input_file g) as [[|a path]|]; simpl_state;
    [rewrite handed_over_app; by f_equal| |rewrite handed_over_app; by f_equal].
  case_decide as Hs.
  { rewrite Hs. cbn. by rewrite app_nil_r. }
  assert (String.eqb (save_as w) "" = false) as -> by (by apply String.eqb_neq).
  cbn [negb andb].
  destruct (imports w);
    repeat (case_match; simplify_eq; simpl_state);
    simpl_state; rewrite <- ?app_assoc; rewrite ?handed_over_app; by f_equal.
Qed.



End Rendering.

(** ** The extras on the sample window *)

(** The text of a float with a finite decimal expansion, with at least one
    digit after the point, as Python's [repr] writes it. *)
Definition float_text (q : Q) : string :=
  let d := Z.pos (Qden q) in
  match find (λ k, (10 ^ Z.of_nat k mod d =? 0)%Z) (seq 1 20) with
  | Some k =>
    let m := (Z.abs (Qnum q) * 10 ^ Z.of_nat k / d)%Z in
    let fraction := pretty (m mod 10 ^ Z.of_nat k)%Z in
    (if (Qnum q <? 0)%Z then "-" else "")
    +:+ pretty (m / 10 ^ Z.of_nat k)%Z +:+ "."
    +:+ String.concat "" (replicate (k - String.length fraction) "0")
    +:+ fraction
  | None => ""
  end.

(** Conversions for the values a configuration holds: strings as they are,
    integers in decimal, floats by [float_text].  A dictionary is never
    shown in a widget. *)
#[global] Instance plain_conversions : Conversions := {
  py_str v :=
    match v with
    | VStr s => s
    | VInt n => pretty n
    | VFloat q => float_text q
    | VBool b => if b then "True" else "False"
    | VRef _ => ""
    end;
  tk_text v :=
    match v with
    | VStr s => s
    | VInt n => pretty n
    | VFloat q => float_text q
    | VBool b => if b then "1" else "0"
    | VRef _ => ""
    end;
  tk_boolean v :=
    match v with
    | VBool b => b
    | VInt n => negb (n =? 0)%Z
    | _ => false
    end
}.

Lemma constructor_raises_attribute_error_witness :
  font_combos blank = None ∧
  ∃ g', __init__ blank = Raise (AttributeError "font_combos") g' ∧
        snapshot g' = default_config ∧ template_var g' = "default" ∧
        font_combos g' = None.
Proof.
  split; [reflexivity|].
  exact (constructor_raises_attribute_error blank eq_refl).
Defined.



Lemma untabbed_records_keep_their_style_witness :
  let evs := [PickFont Title "宋体"; Spin MarginLeft "4";
              ToggleBold Body true; PickTemplate Custom] in
  well_formed sample ∧ Forall (λ ev, loads_template ev = false) evs ∧
  snapshot (run evs sample) !! "heading2" = snapshot sample !! "heading2" ∧
  snapshot (run evs sample) !! "signature" = snapshot sample !! "signature".
Proof.
  intros evs.
  assert (Forall (λ ev, loads_template ev = false) evs) as Hevs
    by (repeat constructor).
  split; [apply sample_well_formed|]. split; [exact Hevs|].
  exact (untabbed_records_keep_their_style evs sample sample_well_formed Hevs).
Defined.

Lemma in_range_events_keep_config_valid_witness :
  let evs := [Spin MarginTop "5"; PickSize Title "20"; PickSize Body "12"] in
  well_formed sample ∧ valid_config (snapshot sample) = true ∧
  Forall in_range evs ∧
  valid_config (snapshot (run evs sample)) = true.
Proof.
  intros evs.
  assert (Forall in_range evs) as Hevs.
  { repeat apply Forall_cons_2; [..|apply Forall_nil_2]; unfold in_range;
      intros x Hx; vm_compute in Hx;
      first [discriminate Hx | by injection Hx as <-]. }
  assert (valid_config (snapshot sample) = true) as Hv.
  { rewrite sample_snapshot. by_evaluation. }
  split; [apply sample_well_formed|]. split; [exact Hv|]. split; [exact Hevs|].
  exact (in_range_events_keep_config_valid evs sample sample_well_formed Hv Hevs).
Defined.



(** What the closing dialog of the witness is: the input cannot be read. *)
Example unreadable_input_ends_in_error :
  last (effects
          (step (ClickFormat {| save_as := "out.docx"; imports := true;
                                constructs := true; file_text := None;
                                formats := true |})
                (set_input_file (Some "notes.md") sample)))
  = Some (ShowError "错误").
Proof. by_evaluation. Qed.
